(** * Logistic regression (supervised_learning/logistic_regression.py)

    A shallow embedding of [LogisticRegression] over the real numbers.
    numpy arrays of float64 are modelled by lists of reals; the one place
    where IEEE non-finite values matter (np.log in the cost) uses an
    extended-real type [xreal].  Arrays that live on the Python heap (the
    caller's X and y, the augmented X, the weight vectors) are kept in an
    explicit store, so that aliasing and mutation can be stated. *)

From Stdlib Require Import Reals Lra Arith Lia.
From Stdlib Require Import String.
From Stdlib Require Import List.
Import ListNotations.
Local Open Scope R_scope.

(** ** Python exceptions raised along the modelled paths *)
Inductive exc :=
| TypeError          (* e.g. float * None inside np.dot *)
| ValueError         (* numpy shape mismatch ("shapes not aligned") *)
| IndexError         (* indexing an empty array *)
| ZeroDivisionError  (* 1/m with m = 0 *)
| OptimizerError (code : nat).  (* anything raised by the injected optimizer *)

Inductive result (A : Type) :=
| Ok (a : A)
| Err (e : exc).
Arguments Ok {A} a.
Arguments Err {A} e.

Definition rbind {A B} (r : result A) (k : A -> result B) : result B :=
  match r with Ok a => k a | Err e => Err e end.

Notation "x <-? c ;; k" := (rbind c (fun x => k))
  (at level 61, c at next level, right associativity).

Definition is_ok {A} (r : result A) : bool :=
  match r with Ok _ => true | Err _ => false end.

(** ** numpy arrays *)

(** A 2-D array of shape [(length rows, ncols)]. *)
Record mat := mk_mat { ncols : nat; rows : list (list R) }.

(** numpy arrays are rectangular: every row has [ncols] entries. *)
Definition mat_wf (X : mat) : Prop :=
  Forall (fun r => length r = ncols X) (rows X).

(** A numpy array of either rank. *)
Inductive ndarray :=
| A1 (v : list R)
| A2 (M : mat).

Definition amap (f : R -> R) (a : ndarray) : ndarray :=
  match a with
  | A1 v => A1 (map f v)
  | A2 M => A2 (mk_mat (ncols M) (map (map f) (rows M)))
  end.

(** Inner product of two vectors of equal length. *)
Fixpoint vdot (a b : list R) : R :=
  match a, b with
  | x :: a', y :: b' => x * y + vdot a' b'
  | _, _ => 0
  end.

(** [np.insert(X, 0, 1, axis=1)]: a new array with a constant-1 first column. *)
Definition np_insert_bias (X : mat) : mat :=
  mk_mat (S (ncols X)) (map (cons 1) (rows X)).

(** [np.zeros((n, ))] *)
Definition np_zeros (n : nat) : list R := repeat 0 n.

(** [X.T] *)
Definition np_transpose (X : mat) : mat :=
  mk_mat (length (rows X))
    (map (fun j => map (fun r => nth j r 0) (rows X)) (seq 0 (ncols X))).

(** [np.dot(M, v)] for a 2-D [M] and a 1-D [v]: the shapes must be aligned. *)
Definition np_dot_mv (M : mat) (v : list R) : result (list R) :=
  if Nat.eqb (ncols M) (length v)
  then Ok (map (fun r => vdot r v) (rows M))
  else Err ValueError.

(** [np.dot(X, theta)] where [theta] may be the Python [None] ([None] here).
    With [None], numpy treats [theta] as a 0-d object array and multiplies
    elementwise: [float * None] raises TypeError as soon as there is one
    entry; an array with no entry gives an empty object array of X's shape. *)
Definition np_dot (X : mat) (theta : option (list R)) : result ndarray :=
  match theta with
  | None =>
      if Nat.eqb (length (rows X) * ncols X) 0 then Ok (A2 X) else Err TypeError
  | Some t => rbind (np_dot_mv X t) (fun v => Ok (A1 v))
  end.

(** Elementwise [a - b] with numpy broadcasting of a length-1 operand. *)
Definition np_sub (a b : list R) : result (list R) :=
  if Nat.eqb (length a) (length b) then Ok (map (fun '(x, y) => x - y) (combine a b))
  else match a, b with
       | [x], _ => Ok (map (fun y => x - y) b)
       | _, [y] => Ok (map (fun x => x - y) a)
       | _, _ => Err ValueError
       end.

(** ** IEEE-style extended reals for np.log *)
Inductive xreal := Fin (r : R) | PInf | NInf | NaN.

Definition is_finite (x : xreal) : bool :=
  match x with Fin _ => true | _ => false end.

Definition inf_of (pos : bool) : xreal := if pos then PInf else NInf.

Definition xneg (x : xreal) : xreal :=
  match x with Fin a => Fin (- a) | PInf => NInf | NInf => PInf | NaN => NaN end.

Definition xadd (x y : xreal) : xreal :=
  match x, y with
  | Fin a, Fin b => Fin (a + b)
  | NaN, _ | _, NaN => NaN
  | PInf, NInf | NInf, PInf => NaN
  | PInf, _ | _, PInf => PInf
  | NInf, _ | _, NInf => NInf
  end.

Definition xsub (x y : xreal) : xreal := xadd x (xneg y).

(** [a * inf] with the sign of [pos]; [0 * inf] is NaN. *)
Definition scale_inf (a : R) (pos : bool) : xreal :=
  if Rlt_dec 0 a then inf_of pos
  else if Rlt_dec a 0 then inf_of (negb pos) else NaN.

Definition xmul (x y : xreal) : xreal :=
  match x, y with
  | Fin a, Fin b => Fin (a * b)
  | NaN, _ | _, NaN => NaN
  | Fin a, PInf | PInf, Fin a => scale_inf a true
  | Fin a, NInf | NInf, Fin a => scale_inf a false
  | PInf, PInf | NInf, NInf => PInf
  | PInf, NInf | NInf, PInf => NInf
  end.

(** [np.log] on a float: -inf at 0, NaN below 0. *)
Definition np_log (x : R) : xreal :=
  if Rlt_dec 0 x then Fin (ln x)
  else if Req_EM_T x 0 then NInf else NaN.

(** [np.dot(a, b)] for 1-D [a] (finite) and 1-D [b] (possibly non-finite). *)
Fixpoint xdot (a : list R) (b : list xreal) : xreal :=
  match a, b with
  | x :: a', y :: b' => xadd (xmul (Fin x) y) (xdot a' b')
  | _, _ => Fin 0
  end.

Definition np_dot_vx (a : list R) (b : list xreal) : result xreal :=
  if Nat.eqb (length a) (length b) then Ok (xdot a b) else Err ValueError.

(** ** The static functions handed to the optimizer *)

(** [LogisticRegression._logistic_function(X, theta)]:
    [value = np.dot(X, theta); return 1 / (1 + np.exp(-value))] *)
Definition _logistic_function (X : mat) (theta : option (list R)) : result ndarray :=
  value <-? np_dot X theta ;;
  Ok (amap (fun v => 1 / (1 + exp (- v))) value).

(** [LogisticRegression._cost_function(X, pred, y)]:
    [m = len(y)]
    [cost = 1/m * (-np.dot(y.T, np.log(pred)) - np.dot((1-y), np.log(1-pred)))]
    [gradient = 1/m * np.dot(X.T, (pred - y))]
    Python evaluates [1/m] first, which raises ZeroDivisionError for [m = 0]. *)
Definition _cost_function (X : mat) (pred y : list R) : result (xreal * list R) :=
  let m := length y in
  if Nat.eqb m 0 then Err ZeroDivisionError else
  let inv_m := 1 / INR m in
  d1 <-? np_dot_vx y (map np_log pred) ;;
  d2 <-? np_dot_vx (map (fun v => 1 - v) y) (map (fun p => np_log (1 - p)) pred) ;;
  let cost := xmul (Fin inv_m) (xsub (xneg d1) d2) in
  diff <-? np_sub pred y ;;
  g <-? np_dot_mv (np_transpose X) diff ;;
  Ok (cost, map (fun v => inv_m * v) g).

(** ** The optimizer interface *)

(** Modelled from the spec: [Optimizer.Status]
    (optimization_algorithms/optimizer.py, not part of this source tree):
    the enumeration {CONVERGED, MAX_ITERATIONS_REACHED, DIVERGED}. *)
Inductive Status := CONVERGED | MAX_ITERATIONS_REACHED | DIVERGED.

Definition status_eqb (a b : Status) : bool :=
  match a, b with
  | CONVERGED, CONVERGED | MAX_ITERATIONS_REACHED, MAX_ITERATIONS_REACHED
  | DIVERGED, DIVERGED => true
  | _, _ => false
  end.

(** The Python heap of numpy arrays: 2-D arrays and 1-D arrays, addressed
    by their index in each list; allocation appends. *)
Record heap := mk_heap { hmat : list mat; hvec : list (list R) }.

Definition mat_at (h : heap) (l : nat) : mat := nth l (hmat h) (mk_mat 0 []).
Definition vec_at (h : heap) (l : nat) : list R := nth l (hvec h) [].

Definition ModelFn := mat -> option (list R) -> result ndarray.
Definition CostFn := mat -> list R -> list R -> result (xreal * list R).

(** Modelled from the spec: the [Optimizer] interface
    (optimization_algorithms/optimizer.py, not part of this source tree).
    [optimize o h X y params model_fn cost_fn] receives the heap and the
    addresses of X, y and the initial parameters, and returns the address of
    the final parameter vector with a status (or raises), the heap after the
    run and the optimizer's own state; [converge_hints] reads that state. *)
Class Optimizer (O : Type) := {
  optimize : O -> heap -> nat -> nat -> nat -> ModelFn -> CostFn ->
             result (nat * Status) * heap * O;
  converge_hints : O -> String.string
}.

(** The attributes of a [LogisticRegression] object.  [_coeff] is the numpy
    view [weights[1:]], kept as (address, offset).  The [_optimizer]
    attribute is the one optimizer object of the run, held in the state. *)
Record LR := mk_LR {
  lr_weights : option nat;
  lr_intercept : option R;
  lr_coeff : option (nat * nat)
}.

(** [__init__]: every fitted attribute starts as [None]. *)
Definition lr_init : LR := mk_LR None None None.

Record state (O : Type) := mk_state {
  s_heap : heap;
  s_out : list String.string;   (* lines printed to stdout *)
  s_opt : O;
  s_self : LR
}.
Arguments mk_state {O} _ _ _ _.
Arguments s_heap {O} _.
Arguments s_out {O} _.
Arguments s_opt {O} _.
Arguments s_self {O} _.

(** ** A state and exception monad; on an exception the state reached so
    far is kept, as a Python object keeps the attributes already set. *)
Section Model.
Context {O : Type} `{Optimizer O}.

Definition M (A : Type) := state O -> result A * state O.

Definition ret {A} (a : A) : M A := fun s => (Ok a, s).
Definition bind {A B} (c : M A) (k : A -> M B) : M B :=
  fun s => match c s with
           | (Ok a, s') => k a s'
           | (Err e, s') => (Err e, s')
           end.
Definition raise {A} (e : exc) : M A := fun s => (Err e, s).
Definition get : M (state O) := fun s => (Ok s, s).
Definition lift {A} (r : result A) : M A := fun s => (r, s).

Local Notation "x <- c ;; k" := (bind c (fun x => k))
  (at level 61, c at next level, right associativity).
Local Notation "c ;;; k" := (bind c (fun _ => k))
  (at level 61, right associativity).

Definition set_self (f : LR -> LR) : M unit :=
  fun s => (Ok tt, mk_state (s_heap s) (s_out s) (s_opt s) (f (s_self s))).

Definition set_weights (w : option nat) : M unit :=
  set_self (fun o => mk_LR w (lr_intercept o) (lr_coeff o)).
Definition set_intercept (b : option R) : M unit :=
  set_self (fun o => mk_LR (lr_weights o) b (lr_coeff o)).
Definition set_coeff (c : option (nat * nat)) : M unit :=
  set_self (fun o => mk_LR (lr_weights o) (lr_intercept o) c).

Definition alloc_mat (X : mat) : M nat :=
  fun s => let h := s_heap s in
    (Ok (length (hmat h)),
     mk_state (mk_heap (hmat h ++ [X]) (hvec h)) (s_out s) (s_opt s) (s_self s)).

Definition alloc_vec (v : list R) : M nat :=
  fun s => let h := s_heap s in
    (Ok (length (hvec h)),
     mk_state (mk_heap (hmat h) (hvec h ++ [v])) (s_out s) (s_opt s) (s_self s)).

Definition print (line : String.string) : M unit :=
  fun s => (Ok tt, mk_state (s_heap s) (s_out s ++ [line]) (s_opt s) (s_self s)).

(** [self._optimizer.optimize(X, y, self._weights, _logistic_function, _cost_function)] *)
Definition call_optimize (xl yl wl : nat) : M (nat * Status) :=
  fun s =>
    match optimize (s_opt s) (s_heap s) xl yl wl _logistic_function _cost_function with
    | (r, h', o') => (r, mk_state h' (s_out s) o' (s_self s))
    end.

Definition hints : M String.string := fun s => (Ok (converge_hints (s_opt s)), s).

(** [a[0]] on a 1-D array. *)
Definition getitem0 (l : nat) : M R :=
  fun s => match vec_at (s_heap s) l with
           | [] => (Err IndexError, s)
           | x :: _ => (Ok x, s)
           end.

Definition warning_line (h : String.string) : String.string :=
  String.append "WARNING: Optimizer did not converge: "%string h.

(** [LogisticRegression.fit(self, X, y)]; [xl] and [yl] are the addresses of
    the caller's arrays. *)
Definition fit (xl yl : nat) : M unit :=
  s <- get ;;
  let X := np_insert_bias (mat_at (s_heap s) xl) in
  xbl <- alloc_mat X ;;
  let num_features := ncols X in
  zl <- alloc_vec (np_zeros num_features) ;;
  set_weights (Some zl) ;;;
  r <- call_optimize xbl yl zl ;;
  let '(wl, status) := r in
  set_weights (Some wl) ;;;
  (if status_eqb status CONVERGED then ret tt
   else (h <- hints ;; print (warning_line h))) ;;;
  w0 <- getitem0 wl ;;
  set_intercept (Some w0) ;;;
  set_coeff (Some (wl, 1%nat)).

(** [LogisticRegression.predict(self, X)] *)
Definition predict (xl : nat) : M ndarray :=
  s <- get ;;
  let X := np_insert_bias (mat_at (s_heap s) xl) in
  _ <- alloc_mat X ;;
  s' <- get ;;
  let theta := option_map (vec_at (s_heap s')) (lr_weights (s_self s')) in
  lift (_logistic_function X theta).

(** [LogisticRegression.get_feature_params(self)]: [return self._coeff] *)
Definition get_feature_params : M (option (nat * nat)) :=
  s <- get ;; ret (lr_coeff (s_self s)).

End Model.

(** A test double for the optimizer: a zero-iteration run that hands back
    the initial parameter array with a fixed status. *)
Record FixedRun := mk_fixed_run { fr_status : Status }.

#[export] Instance FixedRun_optimizer : Optimizer FixedRun := {
  optimize o h xl yl wl mf cf := (Ok (wl, fr_status o), h, o);
  converge_hints o := "iterations: 0"%string
}.

(** A test double that wraps an optimizer and records the feature matrix
    it receives on each call. *)
Record Recording (O : Type) := mk_rec { rec_inner : O; rec_seen : list mat }.
Arguments mk_rec {O} _ _.
Arguments rec_inner {O} _.
Arguments rec_seen {O} _.

#[export] Instance Recording_optimizer {O} `{Optimizer O} : Optimizer (Recording O) := {
  optimize o h xl yl wl mf cf :=
    match optimize (rec_inner o) h xl yl wl mf cf with
    | (r, h', o') => (r, h', mk_rec o' (rec_seen o ++ [mat_at h xl]))
    end;
  converge_hints o := converge_hints (rec_inner o)
}.

(** A test double for an optimizer that raises. *)
Record Raising := mk_raising { rs_code : nat }.

#[export] Instance Raising_optimizer : Optimizer Raising := {
  optimize o h xl yl wl mf cf := (Err (OptimizerError (rs_code o)), h, o);
  converge_hints o := "raised"%string
}.

(** A test double for an optimizer that returns a fresh, empty vector. *)
Record EmptyResult := mk_empty_result { er_status : Status }.

#[export] Instance EmptyResult_optimizer : Optimizer EmptyResult := {
  optimize o h xl yl wl mf cf :=
    (Ok (length (hvec h), er_status o), mk_heap (hmat h) (hvec h ++ [[]]), o);
  converge_hints o := "empty"%string
}.

(** A test double for an optimizer that evaluates the model and the cost
    once at the initial parameters, as a first gradient step does, lets any
    exception of those calls propagate, and hands the parameters back. *)
Record CostCheck := mk_cost_check { cc_runs : nat }.

#[export] Instance CostCheck_optimizer : Optimizer CostCheck := {
  optimize o h xl yl wl mf cf :=
    match mf (mat_at h xl) (Some (vec_at h wl)) with
    | Err e => (Err e, h, o)
    | Ok (A2 _) => (Err TypeError, h, o)  (* not reached with a parameter vector *)
    | Ok (A1 pred) =>
        match cf (mat_at h xl) pred (vec_at h yl) with
        | Err e => (Err e, h, o)
        | Ok _ => (Ok (wl, CONVERGED), h, mk_cost_check (S (cc_runs o)))
        end
    end;
  converge_hints o := "checked"%string
}.

(** ** Definitions following the spec's formulas *)

Definition sigmoid (z : R) : R := 1 / (1 + exp (- z)).

Fixpoint vadd (a b : list R) : list R :=
  match a, b with
  | x :: a', y :: b' => (x + y) :: vadd a' b'
  | _, _ => []
  end.

(** [X^T v] as the combination of the rows of X weighted by v. *)
Fixpoint row_comb (k : nat) (rs : list (list R)) (v : list R) : list R :=
  match rs, v with
  | r :: rs', c :: v' => vadd (map (fun x => c * x) r) (row_comb k rs' v')
  | _, _ => repeat 0 k
  end.

(** Binary cross-entropy [-(1/m)(y^T log(pred) + (1-y)^T log(1-pred))]. *)
Definition spec_cost (pred y : list R) : R :=
  - (1 / INR (length y)) *
    (vdot y (map ln pred) + vdot (map (fun v => 1 - v) y) (map (fun p => ln (1 - p)) pred)).

(** Gradient [(1/m) X^T (pred - y)]. *)
Definition spec_grad (X : mat) (pred y : list R) : list R :=
  map (fun v => (1 / INR (length y)) * v)
    (row_comb (ncols X) (rows X) (map (fun '(p, t) => p - t) (combine pred y))).

(** The matrix [Xb] is [X] with one constant-1 column in front. *)
Definition bias_prepended (X Xb : mat) : Prop :=
  ncols Xb = S (ncols X) /\ rows Xb = map (cons 1) (rows X).

(** An optimizer only writes the matrices it is handed: every other matrix
    that exists when [optimize] is called is left as it is. *)
Definition optimizer_local (O : Type) `{Optimizer O} : Prop :=
  forall o h x y w mf cf r h' o' l,
    optimize o h x y w mf cf = (r, h', o') ->
    (l < length (hmat h))%nat -> l <> x ->
    nth_error (hmat h') l = nth_error (hmat h) l.

(** An optimizer returns a parameter vector of the length of the initial one. *)
Definition optimizer_keeps_length (O : Type) `{Optimizer O} : Prop :=
  forall o h x y w mf cf l st h' o',
    optimize o h x y w mf cf = (Ok (l, st), h', o') ->
    length (vec_at h' l) = length (vec_at h w).

(** Running predict a number of times on the same object. *)
Fixpoint run_predicts {O} `{Optimizer O} (xls : list nat) (s : state O) : state O :=
  match xls with
  | [] => s
  | xl :: xls' => run_predicts xls' (snd (predict xl s))
  end.

(** ** Concrete runs *)

Definition ex_heap : heap := mk_heap [mk_mat 1 [[2]]; mk_mat 1 []; mk_mat 2 [[1; 2]]] [[1]].
Definition ex_state (st : Status) : state FixedRun :=
  mk_state ex_heap [] (mk_fixed_run st) lr_init.

Definition ex_rec_state : state (Recording FixedRun) :=
  mk_state ex_heap [] (mk_rec (mk_fixed_run CONVERGED) []) lr_init.

Definition ex_raising_state : state Raising := mk_state ex_heap [] (mk_raising 7) lr_init.

Definition ex_empty_state : state EmptyResult :=
  mk_state ex_heap [] (mk_empty_result MAX_ITERATIONS_REACHED) lr_init.

(** Two datasets: X1 = [[2]], y1 = [1] and an empty X2 (one column), y2 = []. *)
Definition ex_two_heap : heap := mk_heap [mk_mat 1 [[2]]; mk_mat 1 []] [[1]; []].
Definition ex_cost_check_state : state CostCheck :=
  mk_state ex_two_heap [] (mk_cost_check 0) lr_init.

Example predict_fresh_run : fst (predict 0 (ex_state CONVERGED)) = Err TypeError.
Proof. vm_compute. reflexivity. Qed.

Example predict_fresh_empty_run :
  fst (predict 1 (ex_state CONVERGED)) = Ok (A2 (mk_mat 2 [])).
Proof. vm_compute. reflexivity. Qed.

Example fit_run :
  fit 0 0 (ex_state MAX_ITERATIONS_REACHED) =
  (Ok tt, mk_state
            (mk_heap (hmat ex_heap ++ [mk_mat 2 [[1; 2]]]) [[1]; [0; 0]])
            ["WARNING: Optimizer did not converge: iterations: 0"%string]
            (mk_fixed_run MAX_ITERATIONS_REACHED)
            (mk_LR (Some 1%nat) (Some 0) (Some (1%nat, 1%nat)))).
Proof. vm_compute. reflexivity. Qed.

Example predict_mismatch_run :
  fst (predict 2 (snd (fit 0 0 (ex_state CONVERGED)))) = Err ValueError.
Proof. vm_compute. reflexivity. Qed.

(** ** Structural lemmas *)

Local Ltac unfold_monad :=
  unfold predict, fit, get_feature_params, bind, ret, get, lift, alloc_mat,
    alloc_vec, set_weights, set_intercept, set_coeff, set_self, call_optimize,
    hints, print, getitem0 in *.

Lemma predict_self {O} `{Optimizer O} (s : state O) xl :
  s_self (snd (predict xl s)) = s_self s.
Proof. unfold_monad. simpl. reflexivity. Qed.

Lemma predict_heap {O} `{Optimizer O} (s : state O) xl :
  s_heap (snd (predict xl s)) =
  mk_heap (hmat (s_heap s) ++ [np_insert_bias (mat_at (s_heap s) xl)]) (hvec (s_heap s)).
Proof. unfold_monad. simpl. reflexivity. Qed.

Lemma predict_result {O} `{Optimizer O} (s : state O) xl :
  fst (predict xl s) =
  _logistic_function (np_insert_bias (mat_at (s_heap s) xl))
    (option_map (vec_at (s_heap s)) (lr_weights (s_self s))).
Proof. unfold_monad. simpl. unfold vec_at. simpl. reflexivity. Qed.

Lemma run_predicts_self {O} `{Optimizer O} (xls : list nat) (s : state O) :
  s_self (run_predicts xls s) = s_self s.
Proof.
  revert s; induction xls as [|xl xls IH]; intros s; simpl; [reflexivity|].
  rewrite IH. apply predict_self.
Qed.

(** ** C1 *)

(** C1 (corrected).  [predict] has no fitted-state check.  On an object
    whose weights are [None] (no fit was ever run) it evaluates
    [np.dot(X, None)]: for an X with at least one row this raises a
    TypeError (an error about [float * None], not an unfitted-model error);
    for an X with no row it returns an empty array. *)
Theorem predict_unfitted {O} `{Optimizer O} (s : state O) (xl : nat) :
  lr_weights (s_self s) = None ->
  fst (predict xl s) =
  (if Nat.eqb (length (rows (mat_at (s_heap s) xl))) 0
   then Ok (A2 (np_insert_bias (mat_at (s_heap s) xl)))
   else Err TypeError).
Proof.
  intros Hw. rewrite predict_result, Hw. simpl.
  unfold _logistic_function, np_dot, np_insert_bias. simpl.
  rewrite length_map.
  destruct (rows (mat_at (s_heap s) xl)); reflexivity.
Qed.

Lemma predict_unfitted_witness :
  lr_weights (s_self (ex_state CONVERGED)) = None /\
  fst (predict 0 (ex_state CONVERGED)) =
  (if Nat.eqb (length (rows (mat_at (s_heap (ex_state CONVERGED)) 0))) 0
   then Ok (A2 (np_insert_bias (mat_at (s_heap (ex_state CONVERGED)) 0)))
   else Err TypeError).
Proof. split; [reflexivity | apply predict_unfitted; reflexivity]. Defined.

(** C1: the claim read as "predict before fit always fails" is false: on a
    fresh object and an X with no rows, predict returns a value. *)
Lemma predict_unfitted_empty_counterexample :
  ~ (forall xl, s_self (ex_state CONVERGED) = lr_init ->
       is_ok (fst (predict xl (ex_state CONVERGED))) = false).
Proof.
  intros Hc. specialize (Hc 1%nat eq_refl). vm_compute in Hc. discriminate.
Qed.

(** ** C5 *)

(** C5 (confirmed).  [_logistic_function] is a function of X and theta
    alone (it takes no object state) and, when the shapes are aligned,
    returns the sigmoid [1 / (1 + exp (-(x . theta)))] of each row x. *)
Theorem logistic_function_formula (X : mat) (theta : list R) :
  ncols X = length theta ->
  _logistic_function X (Some theta) =
  Ok (A1 (map (fun r => sigmoid (vdot r theta)) (rows X))).
Proof.
  intros Hn. unfold _logistic_function, np_dot, np_dot_mv.
  rewrite Hn, Nat.eqb_refl. simpl. rewrite map_map. reflexivity.
Qed.

Lemma logistic_function_formula_witness :
  ncols (mk_mat 2 [[1; 2]]) = length [0; 0] /\
  _logistic_function (mk_mat 2 [[1; 2]]) (Some [0; 0]) =
  Ok (A1 (map (fun r => sigmoid (vdot r [0; 0])) (rows (mk_mat 2 [[1; 2]])))).
Proof. split; [reflexivity | apply logistic_function_formula; reflexivity]. Defined.

(** ** C10 *)

(** C10 (confirmed).  On a freshly constructed object, also after any
    number of predict calls, [get_feature_params()] returns [None]
    without raising. *)
Theorem feature_params_unfitted {O} `{Optimizer O} (h : heap) out (o : O) (xls : list nat) :
  fst (get_feature_params (run_predicts xls (mk_state h out o lr_init))) = Ok None.
Proof.
  unfold get_feature_params, bind, get, ret. simpl.
  rewrite run_predicts_self. reflexivity.
Qed.

(** ** C9 *)

(** C9: the claim says a second fit always leaves the same weights,
    intercept and coefficients as a fit on a fresh instance.  With an
    optimizer that evaluates the cost once, fitting X1 = [[2]], y1 = [1]
    and then the empty X2, y2 = [] raises ZeroDivisionError in the second
    fit, which keeps the first fit's intercept, while the fresh instance
    still has None. *)
Lemma fit_overwrites_counterexample :
  ~ (forall (O : Type) (inst : Optimizer O) (s0 : state O) xl1 yl1 xl2 yl2,
       let s1 := snd (fit xl1 yl1 s0) in
       s_self (snd (fit xl2 yl2 s1)) =
       s_self (snd (fit xl2 yl2 (mk_state (s_heap s1) (s_out s1) (s_opt s1) lr_init)))).
Proof.
  intros Hall.
  specialize (Hall CostCheck _ ex_cost_check_state 0%nat 0%nat 1%nat 1%nat).
  cbv zeta in Hall.
  apply (f_equal (fun l => match lr_intercept l with Some _ => true | None => false end)) in Hall.
  vm_compute in Hall. discriminate Hall.
Qed.

(** C9 (corrected).  After any first fit, a second [fit(X2, y2)] behaves as
    [fit(X2, y2)] on a fresh object sharing the same optimizer and heap: the
    same outcome, heap, output and optimizer state and the same stored
    weights.  When the second fit returns normally it also leaves the same
    intercept and coefficients; when it raises (in the optimizer or at
    [weights[0]]) the first fit's intercept and coefficients are left in
    place, where the fresh object has None. *)
Theorem fit_overwrites {O} `{Optimizer O} (s0 : state O) xl1 yl1 xl2 yl2 :
  let s1 := snd (fit xl1 yl1 s0) in
  let a := fit xl2 yl2 s1 in
  let b := fit xl2 yl2 (mk_state (s_heap s1) (s_out s1) (s_opt s1) lr_init) in
  fst a = fst b /\ s_heap (snd a) = s_heap (snd b) /\
  s_out (snd a) = s_out (snd b) /\ s_opt (snd a) = s_opt (snd b) /\
  lr_weights (s_self (snd a)) = lr_weights (s_self (snd b)) /\
  (fst a = Ok tt -> s_self (snd a) = s_self (snd b)) /\
  (fst a <> Ok tt ->
     lr_intercept (s_self (snd a)) = lr_intercept (s_self s1) /\
     lr_coeff (s_self (snd a)) = lr_coeff (s_self s1) /\
     lr_intercept (s_self (snd b)) = None /\ lr_coeff (s_self (snd b)) = None).
Proof.
  cbv zeta. generalize (snd (fit xl1 yl1 s0)) as s1. intros s1.
  unfold fit, bind, ret, get, alloc_mat, alloc_vec, set_weights, set_intercept,
    set_coeff, set_self, call_optimize, hints, print, getitem0. simpl.
  destruct (optimize _ _ _ _ _ _ _) as [[r h'] o'].
  destruct r as [[wl st]|e]; simpl.
  - destruct (status_eqb st CONVERGED); simpl;
      destruct (vec_at h' wl); simpl; repeat split; try congruence;
      intros Hne; exfalso; apply Hne; reflexivity.
  - repeat split; congruence.
Qed.

(** ** C6 *)

(** C6 (confirmed).  [fit(X, y)] allocates [X] with a bias column and a
    zero vector of length [features + 1], hands those (with the caller's y,
    [_logistic_function] and [_cost_function]) to [optimize], stores the
    returned weights, [weights[0]] as intercept and the view [weights[1:]]
    as coefficients, and returns normally; when the status is not
    CONVERGED it prints one warning line carrying [converge_hints()]. *)
Theorem fit_calls_optimizer {O} `{Optimizer O} (s : state O) xl yl wl st h2 o' w0 rest :
  optimize (s_opt s)
    (mk_heap (hmat (s_heap s) ++ [np_insert_bias (mat_at (s_heap s) xl)])
             (hvec (s_heap s) ++ [np_zeros (S (ncols (mat_at (s_heap s) xl)))]))
    (length (hmat (s_heap s))) yl (length (hvec (s_heap s)))
    _logistic_function _cost_function = (Ok (wl, st), h2, o') ->
  vec_at h2 wl = w0 :: rest ->
  fit xl yl s =
  (Ok tt,
   mk_state h2
     (s_out s ++ (if status_eqb st CONVERGED then [] else [warning_line (converge_hints o')]))
     o' (mk_LR (Some wl) (Some w0) (Some (wl, 1%nat)))).
Proof.
  intros Hopt Hw.
  unfold fit, bind, ret, get, alloc_mat, alloc_vec, set_weights, set_intercept,
    set_coeff, set_self, call_optimize, hints, print, getitem0.
  cbn -[np_insert_bias np_zeros optimize vec_at].
  change (S (ncols (mat_at (s_heap s) xl))) with (ncols (np_insert_bias (mat_at (s_heap s) xl))) in Hopt.
  rewrite Hopt.
  destruct (status_eqb st CONVERGED); cbn -[vec_at]; rewrite Hw;
    rewrite ?app_nil_r; reflexivity.
Qed.

Lemma fit_calls_optimizer_witness :
  optimize (s_opt (ex_state DIVERGED))
    (mk_heap (hmat ex_heap ++ [np_insert_bias (mat_at ex_heap 0)])
             (hvec ex_heap ++ [np_zeros (S (ncols (mat_at ex_heap 0)))]))
    (length (hmat ex_heap)) 0 (length (hvec ex_heap))
    _logistic_function _cost_function =
    (Ok (1%nat, DIVERGED),
     mk_heap (hmat ex_heap ++ [np_insert_bias (mat_at ex_heap 0)])
             (hvec ex_heap ++ [np_zeros (S (ncols (mat_at ex_heap 0)))]),
     mk_fixed_run DIVERGED) /\
  fit 0 0 (ex_state DIVERGED) =
  (Ok tt,
   mk_state (mk_heap (hmat ex_heap ++ [np_insert_bias (mat_at ex_heap 0)])
                     (hvec ex_heap ++ [np_zeros (S (ncols (mat_at ex_heap 0)))]))
     ([] ++ (if status_eqb DIVERGED CONVERGED then []
             else [warning_line (converge_hints (mk_fixed_run DIVERGED))]))
     (mk_fixed_run DIVERGED) (mk_LR (Some 1%nat) (Some 0) (Some (1%nat, 1%nat)))).
Proof.
  split; [reflexivity|].
  apply (fit_calls_optimizer (ex_state DIVERGED) 0 0 1 DIVERGED _ _ 0 [0]);
    reflexivity.
Defined.

(** ** C3 *)

(** C3 (confirmed).  Given an optimizer that returns a parameter vector of
    the length it was given, after a successful [fit(X1, y1)] a
    [predict(X2)] with a feature count different from X1's raises the
    shape error of [np.dot] (ValueError) and returns no value. *)
Theorem predict_shape_mismatch {O} `{Optimizer O} :
  optimizer_keeps_length O ->
  forall (s : state O) xl1 yl xl2,
  fst (fit xl1 yl s) = Ok tt ->
  ncols (mat_at (s_heap (snd (fit xl1 yl s))) xl2) <> ncols (mat_at (s_heap s) xl1) ->
  fst (predict xl2 (snd (fit xl1 yl s))) = Err ValueError.
Proof.
  intros Hlen s xl1 yl xl2 Hok Hn.
  rewrite predict_result. revert Hok Hn.
  unfold fit, bind, ret, get, alloc_mat, alloc_vec, set_weights, set_intercept,
    set_coeff, set_self, call_optimize, hints, print, getitem0.
  cbn -[np_insert_bias np_zeros optimize vec_at].
  destruct (optimize _ _ _ _ _ _ _) as [[r h'] o'] eqn:E.
  destruct r as [[wl st]|e]; cbn -[vec_at]; [|discriminate].
  pose proof (Hlen _ _ _ _ _ _ _ _ _ _ _ E) as HL.
  unfold vec_at at 2 in HL. simpl in HL. rewrite nth_middle in HL.
  unfold np_zeros in HL. rewrite repeat_length in HL.
  destruct (status_eqb st CONVERGED); cbn -[vec_at];
    destruct (vec_at h' wl) eqn:W; cbn; try discriminate; intros _ Hn;
    unfold _logistic_function, np_dot, np_dot_mv; simpl;
    rewrite ?W in *; rewrite HL;
    destruct (Nat.eqb_spec (ncols (mat_at h' xl2)) (ncols (mat_at (s_heap s) xl1)));
    simpl; congruence.
Qed.

Lemma FixedRun_keeps_length : optimizer_keeps_length FixedRun.
Proof. intros o h x y w mf cf l st h' o' E. simpl in E. inversion E. reflexivity. Qed.

Lemma FixedRun_local : optimizer_local FixedRun.
Proof. intros o h x y w mf cf r h' o' l E _ _. simpl in E. inversion E. reflexivity. Qed.

Lemma predict_shape_mismatch_witness :
  fst (fit 0 0 (ex_state CONVERGED)) = Ok tt /\
  ncols (mat_at (s_heap (snd (fit 0 0 (ex_state CONVERGED)))) 2) <>
    ncols (mat_at (s_heap (ex_state CONVERGED)) 0) /\
  fst (predict 2 (snd (fit 0 0 (ex_state CONVERGED)))) = Err ValueError.
Proof.
  assert (Hok : fst (fit 0 0 (ex_state CONVERGED)) = Ok tt) by (vm_compute; reflexivity).
  assert (Hn : ncols (mat_at (s_heap (snd (fit 0 0 (ex_state CONVERGED)))) 2) <>
               ncols (mat_at (s_heap (ex_state CONVERGED)) 0)) by (vm_compute; discriminate).
  split; [exact Hok | split; [exact Hn |]].
  exact (predict_shape_mismatch FixedRun_keeps_length (ex_state CONVERGED) 0 0 2 Hok Hn).
Defined.

Lemma mat_at_alloc (l : list mat) (v : list (list R)) (X : mat) :
  mat_at (mk_heap (l ++ [X]) v) (length l) = X.
Proof. unfold mat_at. simpl. apply nth_middle. Qed.

(** ** C8 *)

(** C8 (confirmed).  With an optimizer that only writes the matrices it is
    handed, [fit] hands the optimizer exactly one matrix per call, which is
    the caller's X with one bias column in front, and [predict] applies
    [_logistic_function] to X with one bias column in front; after either
    call the caller's X is unchanged in the heap. *)
Theorem bias_column_once {O} `{Optimizer O} :
  optimizer_local O ->
  forall (s : state (Recording O)) xl yl,
  (xl < length (hmat (s_heap s)))%nat ->
  (exists Xb, rec_seen (s_opt (snd (fit xl yl s))) = rec_seen (s_opt s) ++ [Xb] /\
              bias_prepended (mat_at (s_heap s) xl) Xb) /\
  nth_error (hmat (s_heap (snd (fit xl yl s)))) xl = nth_error (hmat (s_heap s)) xl /\
  (exists Xb, bias_prepended (mat_at (s_heap s) xl) Xb /\
              fst (predict xl s) =
              _logistic_function Xb (option_map (vec_at (s_heap s)) (lr_weights (s_self s)))) /\
  nth_error (hmat (s_heap (snd (predict xl s)))) xl = nth_error (hmat (s_heap s)) xl.
Proof.
  intros Hloc s xl yl Hxl.
  assert (Hb : bias_prepended (mat_at (s_heap s) xl) (np_insert_bias (mat_at (s_heap s) xl)))
    by (split; reflexivity).
  split; [|split; [|split]].
  - unfold fit, bind, ret, get, alloc_mat, alloc_vec, set_weights, set_intercept,
      set_coeff, set_self, call_optimize, hints, print, getitem0.
    cbn -[np_insert_bias np_zeros vec_at mat_at].
    destruct (optimize (rec_inner (s_opt s)) _ _ _ _ _ _) as [[r h'] o'].
    exists (np_insert_bias (mat_at (s_heap s) xl)). split; [|exact Hb].
    destruct r as [[wl st]|e]; cbn -[vec_at mat_at].
    + destruct (status_eqb st CONVERGED); cbn -[vec_at mat_at];
        destruct (vec_at h' wl); cbn [snd s_opt rec_seen]; rewrite mat_at_alloc; reflexivity.
    + cbn [snd s_opt rec_seen]; rewrite mat_at_alloc; reflexivity.
  - unfold fit, bind, ret, get, alloc_mat, alloc_vec, set_weights, set_intercept,
      set_coeff, set_self, call_optimize, hints, print, getitem0.
    cbn -[np_insert_bias np_zeros vec_at mat_at].
    destruct (optimize (rec_inner (s_opt s)) _ _ _ _ _ _) as [[r h'] o'] eqn:E.
    assert (Hx : nth_error (hmat h') xl = nth_error (hmat (s_heap s)) xl).
    { rewrite (Hloc _ _ _ _ _ _ _ _ _ _ xl E).
      - simpl. apply nth_error_app1. exact Hxl.
      - simpl. rewrite length_app. lia.
      - lia. }
    destruct r as [[wl st]|e]; cbn -[vec_at]; [|exact Hx].
    destruct (status_eqb st CONVERGED); cbn -[vec_at];
      destruct (vec_at h' wl); exact Hx.
  - exists (np_insert_bias (mat_at (s_heap s) xl)). split; [exact Hb|].
    apply predict_result.
  - rewrite predict_heap. simpl. apply nth_error_app1. exact Hxl.
Qed.

Lemma bias_column_once_witness :
  (0 < length (hmat (s_heap ex_rec_state)))%nat /\
  ((exists Xb, rec_seen (s_opt (snd (fit 0 0 ex_rec_state))) = rec_seen (s_opt ex_rec_state) ++ [Xb] /\
               bias_prepended (mat_at (s_heap ex_rec_state) 0) Xb) /\
   nth_error (hmat (s_heap (snd (fit 0 0 ex_rec_state)))) 0 =
     nth_error (hmat (s_heap ex_rec_state)) 0 /\
   (exists Xb, bias_prepended (mat_at (s_heap ex_rec_state) 0) Xb /\
               fst (predict 0 ex_rec_state) =
               _logistic_function Xb (option_map (vec_at (s_heap ex_rec_state))
                                                 (lr_weights (s_self ex_rec_state)))) /\
   nth_error (hmat (s_heap (snd (predict 0 ex_rec_state)))) 0 =
     nth_error (hmat (s_heap ex_rec_state)) 0).
Proof.
  assert (Hl : (0 < length (hmat (s_heap ex_rec_state)))%nat) by (simpl; lia).
  split; [exact Hl|].
  exact (bias_column_once FixedRun_local ex_rec_state 0 0 Hl).
Defined.

(** ** The cost function *)

Lemma scale_inf_not_finite (a : R) (pos : bool) : is_finite (scale_inf a pos) = false.
Proof.
  unfold scale_inf. destruct (Rlt_dec 0 a); [|destruct (Rlt_dec a 0)];
    destruct pos; reflexivity.
Qed.

Lemma xmul_fin_finite (a : R) (x : xreal) : is_finite (xmul (Fin a) x) = is_finite x.
Proof. destruct x; simpl; rewrite ?scale_inf_not_finite; reflexivity. Qed.

Lemma xadd_finite (x y : xreal) : is_finite (xadd x y) = (is_finite x && is_finite y)%bool.
Proof. destruct x, y; reflexivity. Qed.

Lemma xneg_finite (x : xreal) : is_finite (xneg x) = is_finite x.
Proof. destruct x; reflexivity. Qed.

Lemma xdot_finite (a : list R) (b : list xreal) :
  length a = length b -> is_finite (xdot a b) = forallb is_finite b.
Proof.
  revert b; induction a as [|x a IH]; intros [|y b] Hl; cbn [xdot forallb length] in *; try lia.
  - reflexivity.
  - rewrite xadd_finite, xmul_fin_finite, IH by lia. reflexivity.
Qed.

Lemma xdot_fin (a b : list R) :
  length a = length b -> xdot a (map Fin b) = Fin (vdot a b).
Proof.
  revert b; induction a as [|x a IH]; intros [|y b] Hl; simpl in *; try lia.
  - reflexivity.
  - rewrite IH by lia. reflexivity.
Qed.

Lemma np_log_finite (x : R) : is_finite (np_log x) = true <-> 0 < x.
Proof.
  unfold np_log. destruct (Rlt_dec 0 x); [split; auto|].
  destruct (Req_EM_T x 0); simpl; split; intros; try discriminate; lra.
Qed.

Lemma np_log_pos (x : R) : 0 < x -> np_log x = Fin (ln x).
Proof. intros Hx. unfold np_log. destruct (Rlt_dec 0 x); [reflexivity | lra]. Qed.

(** Unfolding [_cost_function] when the shapes are aligned and [m > 0]. *)
Lemma cost_function_unfold (X : mat) (pred y : list R) :
  length y <> 0%nat -> length pred = length y -> length (rows X) = length y ->
  _cost_function X pred y =
  let inv_m := 1 / INR (length y) in
  let diff := map (fun '(p, t) => p - t) (combine pred y) in
  Ok (xmul (Fin inv_m)
        (xsub (xneg (xdot y (map np_log pred)))
              (xdot (map (fun v => 1 - v) y) (map (fun p => np_log (1 - p)) pred))),
      map (fun v => inv_m * v) (map (fun r => vdot r diff) (rows (np_transpose X)))).
Proof.
  intros Hm Hp Hr. unfold _cost_function.
  destruct (Nat.eqb_spec (length y) 0) as [E|_]; [contradiction|].
  unfold np_dot_vx. rewrite !length_map, Hp, Nat.eqb_refl. simpl.
  unfold np_sub. rewrite Hp, Nat.eqb_refl. simpl.
  unfold np_dot_mv. simpl.
  rewrite length_map, length_combine, Hp, Hr, Nat.min_id, Nat.eqb_refl.
  reflexivity.
Qed.

Lemma forallb_map_finite (f : R -> xreal) (l : list R) :
  forallb is_finite (map f l) = true <-> Forall (fun p => is_finite (f p) = true) l.
Proof.
  rewrite forallb_forall, Forall_forall. split.
  - intros Hf x Hx. apply Hf, in_map, Hx.
  - intros Hf z Hz. apply in_map_iff in Hz as (x & <- & Hx). apply Hf, Hx.
Qed.

(** The cost computed by [_cost_function] is finite exactly when no
    logarithm hits a point outside (0, +inf). *)
Lemma cost_finite_char (X : mat) (pred y : list R) c g :
  length pred = length y ->
  _cost_function X pred y = Ok (c, g) ->
  (is_finite c = true <-> Forall (fun p => 0 < p < 1) pred).
Proof.
  intros Hp Hc.
  assert (Hm : length y <> 0%nat).
  { intros E. unfold _cost_function in Hc. rewrite E in Hc. discriminate. }
  unfold _cost_function in Hc.
  destruct (Nat.eqb_spec (length y) 0) as [E|_]; [contradiction|].
  unfold np_dot_vx in Hc. rewrite !length_map, Hp, Nat.eqb_refl in Hc. cbn [rbind] in Hc.
  destruct (np_sub pred y); cbn [rbind] in Hc; [|discriminate].
  destruct (np_dot_mv _ _); cbn [rbind] in Hc; [|discriminate].
  injection Hc as Hc _.
  replace c with (xmul (Fin (1 / INR (length y)))
                    (xsub (xneg (xdot y (map np_log pred)))
                          (xdot (map (fun v => 1 - v) y) (map (fun p => np_log (1 - p)) pred))))
    by (rewrite <- Hc; reflexivity).
  unfold xsub. rewrite xmul_fin_finite, xadd_finite, !xneg_finite, !xdot_finite
    by (rewrite !length_map; congruence).
  rewrite Bool.andb_true_iff, !forallb_map_finite.
  rewrite !Forall_forall. split.
  - intros [H1 H2] p Hp'. specialize (H1 p Hp'). specialize (H2 p Hp').
    apply np_log_finite in H1. apply np_log_finite in H2. lra.
  - intros H1. split; intros p Hp'; apply np_log_finite; specialize (H1 p Hp'); lra.
Qed.

(** Column [j] times [v], for all [j], is the combination of the rows by [v]. *)
Lemma map_seq_vadd (F : R -> R) (r : list R) (g : nat -> R) :
  map (fun j => F (nth j r 0) + g j) (seq 0 (length r)) =
  vadd (map F r) (map g (seq 0 (length r))).
Proof.
  revert g; induction r as [|x r IH]; intros g; [reflexivity|].
  cbn [length seq map]. rewrite <- (seq_shift (length r) 0), !map_map.
  cbn [vadd nth]. f_equal. apply (IH (fun j => g (S j))).
Qed.

Lemma map_seq_const (c : R) (s k : nat) : map (fun _ => c) (seq s k) = repeat c k.
Proof. revert s; induction k as [|k IH]; intros s; simpl; [reflexivity|]. rewrite IH. reflexivity. Qed.

Lemma transpose_dot (k : nat) (rs : list (list R)) (v : list R) :
  Forall (fun r => length r = k) rs -> length v = length rs ->
  map (fun j => vdot (map (fun r => nth j r 0) rs) v) (seq 0 k) = row_comb k rs v.
Proof.
  revert v; induction rs as [|r rs IH]; intros v Hwf Hv.
  - destruct v; [|discriminate]. simpl. apply map_seq_const.
  - destruct v as [|c v]; [discriminate|]. inversion Hwf as [|? ? Hr Hrs]; subst.
    simpl. rewrite <- (IH v Hrs) by (simpl in Hv; lia).
    rewrite <- map_seq_vadd.
    apply map_ext. intros j. rewrite Rmult_comm. reflexivity.
Qed.

(** ** C2 *)

(** C2: the claim says predictions are clipped so that the cost stays
    finite; with X = [[1]], pred = [1] and y = [1] the cost that
    [_cost_function] returns is not finite ([(1 - 1) * log 0] is NaN). *)
Lemma cost_saturated_counterexample :
  ~ (forall X pred y c g, _cost_function X pred y = Ok (c, g) -> is_finite c = true).
Proof.
  intros Hc.
  pose proof (cost_function_unfold (mk_mat 1 [[1]]) [1] [1] ltac:(discriminate)
                eq_refl eq_refl) as E.
  cbv zeta in E.
  specialize (Hc _ _ _ _ _ E).
  apply (cost_finite_char _ _ _ _ _ eq_refl E) in Hc.
  inversion Hc as [|? ? Hp _]. lra.
Qed.

(** C2 (corrected).  [_cost_function] does not clip: it takes np.log of
    pred and of 1 - pred as given.  For y and pred of the same nonzero
    length m and an X with m rows it returns a cost and a gradient, and the
    cost is finite exactly when every prediction lies strictly between 0
    and 1 (a prediction equal to 0 or 1 gives NaN or an infinity). *)
Theorem cost_finite_iff_unclipped (X : mat) (pred y : list R) :
  length y <> 0%nat -> length pred = length y -> length (rows X) = length y ->
  exists c g, _cost_function X pred y = Ok (c, g) /\
    (is_finite c = true <-> Forall (fun p => 0 < p < 1) pred).
Proof.
  intros Hm Hp Hr.
  pose proof (cost_function_unfold X pred y Hm Hp Hr) as E. cbv zeta in E.
  eexists _, _. split; [exact E|].
  exact (cost_finite_char X pred y _ _ Hp E).
Qed.

Lemma cost_finite_iff_unclipped_witness :
  length [1] <> 0%nat /\ length [1 / 2] = length [1] /\
  length (rows (mk_mat 1 [[1]])) = length [1] /\
  exists c g, _cost_function (mk_mat 1 [[1]]) [1 / 2] [1] = Ok (c, g) /\
    (is_finite c = true <-> Forall (fun p => 0 < p < 1) [1 / 2]).
Proof.
  assert (H1 : length [1] <> 0%nat) by discriminate.
  split; [exact H1 | split; [reflexivity | split; [reflexivity |]]].
  exact (cost_finite_iff_unclipped (mk_mat 1 [[1]]) [1 / 2] [1] H1 eq_refl eq_refl).
Defined.

(** ** C4 *)

(** C4 (confirmed).  For an X with m > 0 rows, y and pred of length m and
    predictions strictly inside (0, 1), [_cost_function] returns the finite
    cost [-(1/m)(y^T log(pred) + (1-y)^T log(1-pred))] and the gradient
    [(1/m) X^T (pred - y)]. *)
Theorem cost_function_formula (X : mat) (pred y : list R) :
  mat_wf X -> length y <> 0%nat -> length pred = length y ->
  length (rows X) = length y ->
  Forall (fun p => 0 < p < 1) pred ->
  _cost_function X pred y = Ok (Fin (spec_cost pred y), spec_grad X pred y).
Proof.
  intros Hwf Hm Hp Hr Hpr.
  rewrite cost_function_unfold by assumption. cbv zeta.
  rewrite Forall_forall in Hpr.
  assert (L1 : map np_log pred = map Fin (map ln pred)).
  { rewrite map_map. apply map_ext_in. intros p Hin.
    apply np_log_pos. destruct (Hpr p Hin). lra. }
  assert (L2 : map (fun p => np_log (1 - p)) pred = map Fin (map (fun p => ln (1 - p)) pred)).
  { rewrite map_map. apply map_ext_in. intros p Hin.
    apply np_log_pos. destruct (Hpr p Hin). lra. }
  rewrite L1, L2, !xdot_fin by (rewrite !length_map; congruence).
  unfold spec_cost, spec_grad. cbn [xsub xneg xadd xmul]. f_equal. f_equal.
  - f_equal. ring.
  - f_equal. unfold np_transpose. cbn [rows]. rewrite map_map.
    apply transpose_dot; [exact Hwf|].
    rewrite length_map, length_combine, Hp, Hr. lia.
Qed.

Lemma cost_function_formula_witness :
  mat_wf (mk_mat 1 [[1]]) /\ length [1] <> 0%nat /\ length [1 / 2] = length [1] /\
  length (rows (mk_mat 1 [[1]])) = length [1] /\
  Forall (fun p => 0 < p < 1) [1 / 2] /\
  _cost_function (mk_mat 1 [[1]]) [1 / 2] [1] =
    Ok (Fin (spec_cost [1 / 2] [1]), spec_grad (mk_mat 1 [[1]]) [1 / 2] [1]).
Proof.
  assert (Hwf : mat_wf (mk_mat 1 [[1]])) by (repeat constructor).
  assert (H1 : length [1] <> 0%nat) by discriminate.
  assert (Hp : Forall (fun p => 0 < p < 1) [1 / 2]) by (repeat constructor; lra).
  split; [exact Hwf | split; [exact H1 | split; [reflexivity | split; [reflexivity | split; [exact Hp |]]]]].
  exact (cost_function_formula (mk_mat 1 [[1]]) [1 / 2] [1] Hwf H1 eq_refl eq_refl Hp).
Defined.

(** * Further properties of [LogisticRegression] *)

(** The heap [fit] hands to [optimize]: the augmented X and the zero
    vector appended. *)
Lemma fit_ok_inv {O} `{Optimizer O} (s : state O) xl yl :
  fst (fit xl yl s) = Ok tt ->
  exists wl st h2 o' w0 rest,
    optimize (s_opt s)
      (mk_heap (hmat (s_heap s) ++ [np_insert_bias (mat_at (s_heap s) xl)])
               (hvec (s_heap s) ++ [np_zeros (S (ncols (mat_at (s_heap s) xl)))]))
      (length (hmat (s_heap s))) yl (length (hvec (s_heap s)))
      _logistic_function _cost_function = (Ok (wl, st), h2, o') /\
    vec_at h2 wl = w0 :: rest /\
    s_heap (snd (fit xl yl s)) = h2 /\
    s_self (snd (fit xl yl s)) = mk_LR (Some wl) (Some w0) (Some (wl, 1%nat)).
Proof.
  unfold fit, bind, ret, get, alloc_mat, alloc_vec, set_weights, set_intercept,
    set_coeff, set_self, call_optimize, hints, print, getitem0.
  cbn -[np_insert_bias np_zeros optimize vec_at].
  destruct (optimize _ _ _ _ _ _ _) as [[r h'] o'] eqn:E.
  destruct r as [[wl st]|e]; cbn -[vec_at]; [|discriminate].
  intros Hok.
  destruct (status_eqb st CONVERGED); cbn -[vec_at] in *;
    destruct (vec_at h' wl) as [|w0 rest] eqn:W; cbn in *; try discriminate;
    exists wl, st, h', o', w0, rest; repeat split; assumption.
Qed.

Lemma zeros_length_after_optimize {O} `{Optimizer O} (s : state O) xl yl wl st h2 o' :
  optimizer_keeps_length O ->
  optimize (s_opt s)
    (mk_heap (hmat (s_heap s) ++ [np_insert_bias (mat_at (s_heap s) xl)])
             (hvec (s_heap s) ++ [np_zeros (S (ncols (mat_at (s_heap s) xl)))]))
    (length (hmat (s_heap s))) yl (length (hvec (s_heap s)))
    _logistic_function _cost_function = (Ok (wl, st), h2, o') ->
  length (vec_at h2 wl) = S (ncols (mat_at (s_heap s) xl)).
Proof.
  intros Hlen E. rewrite (Hlen _ _ _ _ _ _ _ _ _ _ _ E).
  unfold vec_at. simpl. rewrite nth_middle. unfold np_zeros. apply repeat_length.
Qed.



(** X: after a successful fit, [get_feature_params()] returns the view
    [weights[1:]]: the stored weights are the intercept followed by these
    coefficients, one per feature of the X fitted on. *)
Theorem feature_params_after_fit {O} `{Optimizer O} :
  optimizer_keeps_length O ->
  forall (s : state O) xl yl,
  fst (fit xl yl s) = Ok tt ->
  exists wl b,
    fst (get_feature_params (snd (fit xl yl s))) = Ok (Some (wl, 1%nat)) /\
    lr_weights (s_self (snd (fit xl yl s))) = Some wl /\
    lr_intercept (s_self (snd (fit xl yl s))) = Some b /\
    vec_at (s_heap (snd (fit xl yl s))) wl = b :: skipn 1 (vec_at (s_heap (snd (fit xl yl s))) wl) /\
    length (skipn 1 (vec_at (s_heap (snd (fit xl yl s))) wl)) = ncols (mat_at (s_heap s) xl).
Proof.
  intros Hlen s xl yl Hok.
  destruct (fit_ok_inv s xl yl Hok) as (wl & st & h2 & o' & w0 & rest & E & W & Hh & Hs).
  pose proof (zeros_length_after_optimize s xl yl wl st h2 o' Hlen E) as HL.
  exists wl, w0. unfold get_feature_params, bind, get, ret. simpl.
  rewrite Hs, Hh, W. simpl. rewrite W in HL. simpl in HL.
  repeat split; try reflexivity. lia.
Qed.

Lemma feature_params_after_fit_witness :
  fst (fit 0 0 (ex_state CONVERGED)) = Ok tt /\
  exists wl b,
    fst (get_feature_params (snd (fit 0 0 (ex_state CONVERGED)))) = Ok (Some (wl, 1%nat)) /\
    lr_weights (s_self (snd (fit 0 0 (ex_state CONVERGED)))) = Some wl /\
    lr_intercept (s_self (snd (fit 0 0 (ex_state CONVERGED)))) = Some b /\
    vec_at (s_heap (snd (fit 0 0 (ex_state CONVERGED)))) wl =
      b :: skipn 1 (vec_at (s_heap (snd (fit 0 0 (ex_state CONVERGED)))) wl) /\
    length (skipn 1 (vec_at (s_heap (snd (fit 0 0 (ex_state CONVERGED)))) wl)) =
      ncols (mat_at (s_heap (ex_state CONVERGED)) 0).
Proof.
  assert (Hok : fst (fit 0 0 (ex_state CONVERGED)) = Ok tt) by (vm_compute; reflexivity).
  split; [exact Hok |].
  exact (feature_params_after_fit FixedRun_keeps_length (ex_state CONVERGED) 0 0 Hok).
Defined.

(** X: when [optimize] raises, [fit] raises the same exception, prints
    nothing, and leaves the object half-updated: [_weights] already points
    at the zero initial vector while intercept and coefficients keep their
    previous values. *)
Theorem fit_optimizer_raises {O} `{Optimizer O} (s : state O) xl yl e h2 o' :
  optimize (s_opt s)
    (mk_heap (hmat (s_heap s) ++ [np_insert_bias (mat_at (s_heap s) xl)])
             (hvec (s_heap s) ++ [np_zeros (S (ncols (mat_at (s_heap s) xl)))]))
    (length (hmat (s_heap s))) yl (length (hvec (s_heap s)))
    _logistic_function _cost_function = (Err e, h2, o') ->
  fit xl yl s =
  (Err e, mk_state h2 (s_out s) o'
            (mk_LR (Some (length (hvec (s_heap s))))
                   (lr_intercept (s_self s)) (lr_coeff (s_self s)))).
Proof.
  intros Hopt.
  unfold fit, bind, ret, get, alloc_mat, alloc_vec, set_weights, set_intercept,
    set_coeff, set_self, call_optimize, hints, print, getitem0.
  cbn -[np_insert_bias np_zeros optimize vec_at].
  change (S (ncols (mat_at (s_heap s) xl))) with (ncols (np_insert_bias (mat_at (s_heap s) xl))) in Hopt.
  rewrite Hopt. reflexivity.
Qed.

Lemma fit_optimizer_raises_witness :
  optimize (s_opt ex_raising_state)
    (mk_heap (hmat ex_heap ++ [np_insert_bias (mat_at ex_heap 0)])
             (hvec ex_heap ++ [np_zeros (S (ncols (mat_at ex_heap 0)))]))
    (length (hmat ex_heap)) 0 (length (hvec ex_heap))
    _logistic_function _cost_function =
    (Err (OptimizerError 7),
     mk_heap (hmat ex_heap ++ [np_insert_bias (mat_at ex_heap 0)])
             (hvec ex_heap ++ [np_zeros (S (ncols (mat_at ex_heap 0)))]),
     mk_raising 7) /\
  fit 0 0 ex_raising_state =
  (Err (OptimizerError 7),
   mk_state (mk_heap (hmat ex_heap ++ [np_insert_bias (mat_at ex_heap 0)])
                     (hvec ex_heap ++ [np_zeros (S (ncols (mat_at ex_heap 0)))]))
     [] (mk_raising 7)
     (mk_LR (Some (length (hvec ex_heap))) None None)).
Proof.
  split; [reflexivity|].
  apply (fit_optimizer_raises ex_raising_state 0 0 (OptimizerError 7) _ (mk_raising 7)).
  reflexivity.
Defined.

(** X: when [optimize] returns an empty weight vector, [fit] stores it,
    prints the warning if the status is not CONVERGED, and then raises
    IndexError at [weights[0]]; intercept and coefficients are not updated. *)
Theorem fit_empty_weights {O} `{Optimizer O} (s : state O) xl yl wl st h2 o' :
  optimize (s_opt s)
    (mk_heap (hmat (s_heap s) ++ [np_insert_bias (mat_at (s_heap s) xl)])
             (hvec (s_heap s) ++ [np_zeros (S (ncols (mat_at (s_heap s) xl)))]))
    (length (hmat (s_heap s))) yl (length (hvec (s_heap s)))
    _logistic_function _cost_function = (Ok (wl, st), h2, o') ->
  vec_at h2 wl = [] ->
  fit xl yl s =
  (Err IndexError,
   mk_state h2
     (s_out s ++ (if status_eqb st CONVERGED then [] else [warning_line (converge_hints o')]))
     o' (mk_LR (Some wl) (lr_intercept (s_self s)) (lr_coeff (s_self s)))).
Proof.
  intros Hopt Hw.
  unfold fit, bind, ret, get, alloc_mat, alloc_vec, set_weights, set_intercept,
    set_coeff, set_self, call_optimize, hints, print, getitem0.
  cbn -[np_insert_bias np_zeros optimize vec_at].
  change (S (ncols (mat_at (s_heap s) xl))) with (ncols (np_insert_bias (mat_at (s_heap s) xl))) in Hopt.
  rewrite Hopt.
  destruct (status_eqb st CONVERGED); cbn -[vec_at]; rewrite Hw;
    rewrite ?app_nil_r; reflexivity.
Qed.

Lemma fit_empty_weights_witness :
  optimize (s_opt ex_empty_state)
    (mk_heap (hmat ex_heap ++ [np_insert_bias (mat_at ex_heap 0)])
             (hvec ex_heap ++ [np_zeros (S (ncols (mat_at ex_heap 0)))]))
    (length (hmat ex_heap)) 0 (length (hvec ex_heap))
    _logistic_function _cost_function =
    (Ok (2%nat, MAX_ITERATIONS_REACHED),
     mk_heap (hmat ex_heap ++ [np_insert_bias (mat_at ex_heap 0)])
             (hvec ex_heap ++ [np_zeros (S (ncols (mat_at ex_heap 0)))] ++ [[]]),
     mk_empty_result MAX_ITERATIONS_REACHED) /\
  vec_at (mk_heap (hmat ex_heap ++ [np_insert_bias (mat_at ex_heap 0)])
                  (hvec ex_heap ++ [np_zeros (S (ncols (mat_at ex_heap 0)))] ++ [[]])) 2 = [] /\
  fit 0 0 ex_empty_state =
  (Err IndexError,
   mk_state (mk_heap (hmat ex_heap ++ [np_insert_bias (mat_at ex_heap 0)])
                     (hvec ex_heap ++ [np_zeros (S (ncols (mat_at ex_heap 0)))] ++ [[]]))
     ([] ++ (if status_eqb MAX_ITERATIONS_REACHED CONVERGED then []
             else [warning_line (converge_hints (mk_empty_result MAX_ITERATIONS_REACHED))]))
     (mk_empty_result MAX_ITERATIONS_REACHED) (mk_LR (Some 2%nat) None None)).
Proof.
  split; [reflexivity | split; [reflexivity |]].
  apply (fit_empty_weights ex_empty_state 0 0 2 MAX_ITERATIONS_REACHED _ _);
    reflexivity.
Defined.

(** ** The cost function: errors, shape and value *)

(** X: [_cost_function] raises ZeroDivisionError on an empty label vector;
    otherwise it returns a value exactly when pred and the rows of X have
    the length of y, and raises ValueError (a numpy shape error) when not.
    The length-1 broadcasting of [pred - y] is never reached. *)
Theorem cost_function_errors (X : mat) (pred y : list R) :
  (length y = 0%nat -> _cost_function X pred y = Err ZeroDivisionError) /\
  (length y <> 0%nat ->
     (is_ok (_cost_function X pred y) = true <->
        length pred = length y /\ length (rows X) = length y) /\
     (is_ok (_cost_function X pred y) = false -> _cost_function X pred y = Err ValueError)).
Proof.
  split.
  - intros E. unfold _cost_function. rewrite E. reflexivity.
  - intros Hm. unfold _cost_function.
    destruct (Nat.eqb_spec (length y) 0) as [E|_]; [contradiction|].
    unfold np_dot_vx. rewrite !length_map.
    destruct (Nat.eqb_spec (length y) (length pred)) as [Hp|Hp]; cbn [rbind].
    + unfold np_sub. rewrite Hp, Nat.eqb_refl. cbn [rbind].
      unfold np_dot_mv, np_transpose. cbn [ncols].
      rewrite length_map, length_combine, Hp, Nat.min_id.
      destruct (Nat.eqb_spec (length (rows X)) (length pred)) as [Hr|Hr];
        cbn [rbind is_ok]; split; intuition (try discriminate; try lia).
    + cbn [is_ok]. split; [split; [discriminate | lia] | reflexivity].
Qed.

(** X: every gradient returned by [_cost_function] has one entry per
    column of X, the length of the parameter vector. *)
Theorem cost_gradient_length (X : mat) (pred y : list R) c g :
  _cost_function X pred y = Ok (c, g) -> length g = ncols X.
Proof.
  intros Hc. unfold _cost_function in Hc.
  destruct (Nat.eqb (length y) 0); [discriminate|].
  destruct (np_dot_vx _ _); cbn [rbind] in Hc; [|discriminate].
  destruct (np_dot_vx _ _); cbn [rbind] in Hc; [|discriminate].
  destruct (np_sub pred y); cbn [rbind] in Hc; [|discriminate].
  destruct (np_dot_mv (np_transpose X) _) as [w|] eqn:E; cbn [rbind] in Hc; [|discriminate].
  injection Hc as _ <-. rewrite length_map.
  unfold np_dot_mv in E. destruct (Nat.eqb _ _); [|discriminate].
  injection E as <-. rewrite length_map. unfold np_transpose. cbn [rows].
  rewrite length_map, length_seq. reflexivity.
Qed.

Lemma cost_gradient_length_witness :
  exists c g, _cost_function (mk_mat 2 [[1; 3]]) [1 / 2] [1] = Ok (c, g) /\
    length g = ncols (mk_mat 2 [[1; 3]]).
Proof.
  do 2 eexists. split.
  - reflexivity.
  - eapply (cost_gradient_length (mk_mat 2 [[1; 3]]) [1 / 2] [1]). reflexivity.
Defined.

(** With the shapes aligned and every prediction inside (0, 1), the value
    [_cost_function] returns is the finite cross-entropy. *)
Lemma cost_interior_value (X : mat) (pred y : list R) :
  length y <> 0%nat -> length pred = length y -> length (rows X) = length y ->
  Forall (fun p => 0 < p < 1) pred ->
  exists g, _cost_function X pred y = Ok (Fin (spec_cost pred y), g).
Proof.
  intros Hm Hp Hr Hpr.
  rewrite cost_function_unfold by assumption. cbv zeta.
  rewrite Forall_forall in Hpr.
  assert (L1 : map np_log pred = map Fin (map ln pred)).
  { rewrite map_map. apply map_ext_in. intros p Hin.
    apply np_log_pos. destruct (Hpr p Hin). lra. }
  assert (L2 : map (fun p => np_log (1 - p)) pred = map Fin (map (fun p => ln (1 - p)) pred)).
  { rewrite map_map. apply map_ext_in. intros p Hin.
    apply np_log_pos. destruct (Hpr p Hin). lra. }
  rewrite L1, L2, !xdot_fin by (rewrite !length_map; congruence).
  eexists. unfold spec_cost. cbn [xsub xneg xadd xmul]. do 3 f_equal. ring.
Qed.

Lemma vdot_repeat_0 (r : list R) (n : nat) : vdot r (repeat 0 n) = 0.
Proof.
  revert n; induction r as [|x r IH]; intros [|n]; cbn [vdot repeat]; try reflexivity.
  rewrite IH. ring.
Qed.

Lemma sigmoid_0 : 1 / (1 + exp (- 0)) = 1 / 2.
Proof. rewrite Ropp_0, exp_0. reflexivity. Qed.

Lemma xent_sum_const (y : list R) (c : R) :
  vdot y (repeat c (length y)) + vdot (map (fun v => 1 - v) y) (repeat c (length y)) =
  INR (length y) * c.
Proof.
  induction y as [|t y IH]; cbn [vdot map repeat length]; [cbn [INR]; ring|].
  rewrite S_INR, Rmult_plus_distr_r, <- IH. ring.
Qed.

(** X: with the zero parameter vector [fit] starts the optimizer from, the
    logistic function predicts 1/2 for every row, and the cost of those
    predictions is ln 2 whatever the labels are. *)
Theorem initial_cost_ln2 (X : mat) (y : list R) :
  length y <> 0%nat -> length (rows X) = length y ->
  _logistic_function X (Some (np_zeros (ncols X))) = Ok (A1 (repeat (1 / 2) (length y))) /\
  exists g, _cost_function X (repeat (1 / 2) (length y)) y = Ok (Fin (ln 2), g).
Proof.
  intros Hm Hr. split.
  - unfold _logistic_function, np_dot, np_dot_mv, np_zeros.
    rewrite repeat_length, Nat.eqb_refl. cbn [rbind amap]. f_equal. f_equal.
    rewrite map_map, <- Hr.
    erewrite map_ext by (intros r; rewrite vdot_repeat_0; exact sigmoid_0).
    apply map_const.
  - destruct (cost_interior_value X (repeat (1 / 2) (length y)) y Hm
                (repeat_length _ _) Hr) as [g E].
    { apply Forall_forall. intros p Hin. apply repeat_spec in Hin. subst p. lra. }
    exists g. rewrite E. do 3 f_equal. unfold spec_cost.
    replace (map ln (repeat (1 / 2) (length y))) with (repeat (ln (1 / 2)) (length y))
      by (rewrite map_repeat; reflexivity).
    replace (map (fun p => ln (1 - p)) (repeat (1 / 2) (length y)))
      with (repeat (ln (1 / 2)) (length y))
      by (rewrite map_repeat; do 2 f_equal; lra).
    rewrite xent_sum_const.
    assert (Hl : ln (1 / 2) = - ln 2).
    { unfold Rdiv. rewrite Rmult_1_l. apply ln_Rinv. lra. }
    rewrite Hl. assert (INR (length y) <> 0) by (apply not_0_INR; exact Hm).
    field. assumption.
Qed.

Lemma initial_cost_ln2_witness :
  _logistic_function (mk_mat 1 [[3]; [5]]) (Some (np_zeros 1)) = Ok (A1 (repeat (1 / 2) 2)) /\
  exists g, _cost_function (mk_mat 1 [[3]; [5]]) (repeat (1 / 2) 2) [1; 0] = Ok (Fin (ln 2), g).
Proof.
  exact (initial_cost_ln2 (mk_mat 1 [[3]; [5]]) [1; 0] ltac:(discriminate) eq_refl).
Defined.

Lemma cost_function_errors_witness :
  _cost_function (mk_mat 1 []) [] [] = Err ZeroDivisionError /\
  _cost_function (mk_mat 1 [[1]]) [1 / 2; 1 / 2] [1] = Err ValueError.
Proof.
  split.
  - apply (proj1 (cost_function_errors (mk_mat 1 []) [] [])). reflexivity.
  - apply (proj2 (proj2 (cost_function_errors (mk_mat 1 [[1]]) [1 / 2; 1 / 2] [1])
                   ltac:(discriminate))).
    reflexivity.
Defined.

(** X: when the predictions equal the labels, [_cost_function] returns the
    zero gradient, one entry per column of X: [pred - y] is the zero
    vector, and every entry of [X.T] times it is 0. *)
Theorem cost_gradient_zero_at_labels (X : mat) (y : list R) :
  length y <> 0%nat -> length (rows X) = length y ->
  exists c, _cost_function X y y = Ok (c, repeat 0 (ncols X)).
Proof.
  intros Hm Hr.
  rewrite cost_function_unfold by (reflexivity || assumption). cbv zeta.
  eexists. do 2 f_equal.
  assert (Hd : map (fun '(p, t) => p - t) (combine y y) = repeat 0 (length y)).
  { clear. induction y as [|t y IH]; cbn [combine map repeat length]; [reflexivity|].
    rewrite IH, Rminus_diag. reflexivity. }
  rewrite Hd. unfold np_transpose. cbn [rows]. rewrite !map_map.
  erewrite map_ext by (intros j; rewrite vdot_repeat_0, Rmult_0_r; reflexivity).
  rewrite map_const, length_seq. reflexivity.
Qed.

Lemma cost_gradient_zero_at_labels_witness :
  exists c, _cost_function (mk_mat 2 [[1; 3]; [1; -2]]) [1; 0] [1; 0] = Ok (c, repeat 0 2).
Proof.
  exact (cost_gradient_zero_at_labels (mk_mat 2 [[1; 3]; [1; -2]]) [1; 0]
           ltac:(discriminate) eq_refl).
Defined.
